(** * Gas stock ledger: a shallow embedding of [backend/app.py]

    The Flask application keeps two tables: [StockRecord], the ledger of
    inbound and outbound movements, and [StockSummary], a single row with the
    running stock (kilograms), the total sales and the total cost.  Each
    request handler is embedded as a function from the committed database
    state to the new committed state and the HTTP response.

    Modelling decisions:
    - Python numbers (JSON ints and floats, SQL [Float] columns) are exact
      rationals [Qc]; binary64 rounding, NaN and infinities are outside the
      model.
    - A handler that raises (a [TypeError] on a non-numeric truthy JSON
      value, a [ValueError] of [strptime]) never reaches [db.session.commit()],
      so it answers 500 and leaves the committed state as it was.
    - [datetime.utcnow], the column default of [created_at], is an explicit
      argument [now] of the two handlers that insert a row.
    - A calendar date is its proleptic Gregorian ordinal (Python's
      [date.toordinal()]); the text form ['%Y-%m-%d'] is not modelled.
    - [pytz] is an external library: a time zone is the pair of offsets that
      the two ways of using it in [get_records] rely on. *)

From Stdlib Require Import ZArith QArith Qcanon Lia.
From stdpp Require Import gmap list numbers sorting strings.

Local Open Scope Z_scope.

(** ** JSON values of a request body *)

Inductive json :=
| JNull                 (* key absent ([data.get] gives [None]) or [null] *)
| JBool (b : bool)
| JNum (q : Qc)
| JStr (s : string).

(** Python truthiness, as tested by [not weight]. *)
Definition truthy (v : json) : bool :=
  match v with
  | JNull => false
  | JBool b => b
  | JNum q => negb (bool_decide (q = 0%Qc))
  | JStr s => negb (bool_decide (s = EmptyString))
  end.

(** The value as an operand of float arithmetic; [None] stands for the
    [TypeError] Python raises ([bool] is a subclass of [int]). *)
Definition as_number (v : json) : option Qc :=
  match v with
  | JNum q => Some q
  | JBool true => Some 1%Qc
  | JBool false => Some 0%Qc
  | JNull | JStr _ => None
  end.

(** [request.get_json()] followed by [data.get('weight')] and
    [data.get('amount')], for a body that is a JSON object. *)
Record json_body := { get_weight : json; get_amount : json }.

(** ** Naive datetimes *)

Record datetime := {
  ordinal : Z;          (* the date, as [date.toordinal()] *)
  hour : Z;
  minute : Z;
  second : Z;
  microsecond : Z
}.

Definition US_PER_SECOND : Z := 1000000.
Definition US_PER_MINUTE : Z := 60 * US_PER_SECOND.
Definition US_PER_HOUR : Z := 60 * US_PER_MINUTE.
Definition US_PER_DAY : Z := 24 * US_PER_HOUR.

Definition to_micros (d : datetime) : Z :=
  ordinal d * US_PER_DAY + hour d * US_PER_HOUR + minute d * US_PER_MINUTE
  + second d * US_PER_SECOND + microsecond d.

Definition of_micros (t : Z) : datetime :=
  {| ordinal := t / US_PER_DAY;
     hour := (t mod US_PER_DAY) / US_PER_HOUR;
     minute := (t mod US_PER_HOUR) / US_PER_MINUTE;
     second := (t mod US_PER_MINUTE) / US_PER_SECOND;
     microsecond := t mod US_PER_SECOND |}.

Definition valid_datetime (d : datetime) : Prop :=
  0 <= hour d < 24 /\ 0 <= minute d < 60 /\ 0 <= second d < 60
  /\ 0 <= microsecond d < US_PER_SECOND.

(** [datetime.strptime(s, '%Y-%m-%d')]: midnight of the parsed date. *)
Definition strptime (date : Z) : datetime :=
  {| ordinal := date; hour := 0; minute := 0; second := 0; microsecond := 0 |}.

(** [d.replace(hour=23, minute=59, second=59, microsecond=999999)]. *)
Definition replace_end_of_day (d : datetime) : datetime :=
  {| ordinal := ordinal d; hour := 23; minute := 59; second := 59;
     microsecond := 999999 |}.

(** A [pytz] zone, reduced to what [get_records] uses of it.
    [replace(tzinfo=tz)] attaches the zone's default [tzinfo], whose offset is
    the first entry of the zone's table (local mean time);
    [astimezone(tz)] from UTC applies the offset in force at that instant. *)
Record tzinfo := {
  default_utcoffset : Z;   (* microseconds east of UTC *)
  current_utcoffset : Z    (* microseconds east of UTC *)
}.

(** [pytz.timezone('Asia/Shanghai')]: LMT+8:06 as default, UTC+8 in force
    (no daylight saving time since 1991). *)
Definition Asia_Shanghai : tzinfo :=
  {| default_utcoffset := 8 * US_PER_HOUR + 6 * US_PER_MINUTE;
     current_utcoffset := 8 * US_PER_HOUR |}.

(** [d.replace(tzinfo=tz).astimezone(pytz.utc)], as the UTC wall clock. *)
Definition replace_tzinfo_astimezone_utc (tz : tzinfo) (d : datetime) : datetime :=
  of_micros (to_micros d - default_utcoffset tz).

(** [d.replace(tzinfo=pytz.utc).astimezone(tz)], as the local wall clock. *)
Definition utc_astimezone (tz : tzinfo) (d : datetime) : datetime :=
  of_micros (to_micros d + current_utcoffset tz).

(** [strftime('%Y-%m-%d %H:%M:%S')] shows no fraction of a second. *)
Definition strftime (d : datetime) : datetime :=
  {| ordinal := ordinal d; hour := hour d; minute := minute d;
     second := second d; microsecond := 0 |}.

(** ** Database models *)

Inductive record_type := type_in | type_out.     (* 'in' / 'out' *)
Inductive record_unit := unit_kg | unit_jin.     (* 'kg' / 'jin' *)

Module StockRecord.
Record t := {
  type : record_type;
  weight : Qc;
  amount : Qc;
  created_at : datetime;
  unit : record_unit
}.

(* [record.weight = v], [record.amount = v] *)
Definition set_weight (v : Qc) (r : t) : t :=
  {| type := type r; weight := v; amount := amount r;
     created_at := created_at r; unit := unit r |}.
Definition set_amount (v : Qc) (r : t) : t :=
  {| type := type r; weight := weight r; amount := v;
     created_at := created_at r; unit := unit r |}.
End StockRecord.

Module StockSummary.
Record t := {
  current_stock : Qc;   (* kilograms *)
  total_sales : Qc;
  total_cost : Qc
}.

(* [summary.current_stock = v] and its siblings *)
Definition set_current_stock (v : Qc) (s : t) : t :=
  {| current_stock := v; total_sales := total_sales s;
     total_cost := total_cost s |}.
Definition set_total_sales (v : Qc) (s : t) : t :=
  {| current_stock := current_stock s; total_sales := v;
     total_cost := total_cost s |}.
Definition set_total_cost (v : Qc) (s : t) : t :=
  {| current_stock := current_stock s; total_sales := total_sales s;
     total_cost := v |}.
End StockSummary.

#[global] Instance record_type_eq_dec : EqDecision record_type.
Proof. solve_decision. Defined.
#[global] Instance record_unit_eq_dec : EqDecision record_unit.
Proof. solve_decision. Defined.

(** The committed state: the ledger table keyed by primary key, and the one
    row of the summary table. *)
Record database := {
  records : gmap N StockRecord.t;
  summary : StockSummary.t
}.

(** First boot: [db.create_all()] and the zero-initialised summary row. *)
Definition init_db : database :=
  {| records := ∅;
     summary := {| StockSummary.current_stock := 0%Qc;
                   StockSummary.total_sales := 0%Qc;
                   StockSummary.total_cost := 0%Qc |} |}.

(** SQLite assigns an [INTEGER PRIMARY KEY] one more than the largest key in
    the table (1 for an empty table). *)
Definition max_id (m : gmap N StockRecord.t) : N :=
  map_fold (fun k _ acc => N.max k acc) 0%N m.

Definition next_id (m : gmap N StockRecord.t) : N := (max_id m + 1)%N.

(** ** Responses *)

Inductive error :=
| MissingParams        (* '缺少必要参数' *)
| InsufficientStock    (* '库存不足' *)
| NotFound.            (* '记录不存在' *)

Inductive message :=
| StockInDone | StockOutDone | RecordDeleted | RecordUpdated.

(** One element of the array returned by [get_records]. *)
Record record_row := {
  row_id : N;
  row_type : record_type;        (* shown as '入库' / '出库' *)
  row_weight : Qc;
  row_unit : record_unit;        (* shown as '公斤' / '斤' *)
  row_amount : Qc;
  row_created_at : datetime      (* local wall clock, to the second *)
}.

Inductive payload :=
| Error (e : error)
| Success (m : message)
| Summary (current_stock total_sales total_cost profit : Qc)
| Records (rows : list record_row)
| Unhandled.                     (* an exception escaped the handler *)

Record response := { body : payload; status : Z }.

Definition jsonify (p : payload) : response := {| body := p; status := 200 |}.
Definition jsonify_status (p : payload) (code : Z) : response :=
  {| body := p; status := code |}.
Definition internal_server_error : response :=
  {| body := Unhandled; status := 500 |}.

(** ** Request handlers *)

(** [POST /api/stock/in] *)
Definition stock_in (now : datetime) (data : json_body) (db : database)
  : database * response :=
  let weight := get_weight data in
  let amount := get_amount data in
  if negb (truthy weight) || negb (truthy amount) then
    (db, jsonify_status (Error MissingParams) 400)
  else
    match as_number weight, as_number amount with
    | Some weight, Some amount =>
      let record :=
        {| StockRecord.type := type_in;
           StockRecord.weight := weight;
           StockRecord.amount := amount;
           StockRecord.created_at := now;
           StockRecord.unit := unit_kg |} in
      let session := <[next_id (records db) := record]> (records db) in
      let summary := summary db in
      let summary :=
        StockSummary.set_current_stock
          (StockSummary.current_stock summary + weight)%Qc summary in
      let summary :=
        StockSummary.set_total_cost
          (StockSummary.total_cost summary + amount)%Qc summary in
      ({| records := session; summary := summary |},
       jsonify (Success StockInDone))
    | _, _ => (db, internal_server_error)
    end.

(** [POST /api/stock/out] *)
Definition stock_out (now : datetime) (data : json_body) (db : database)
  : database * response :=
  let weight := get_weight data in
  let amount := get_amount data in
  if negb (truthy weight) || negb (truthy amount) then
    (db, jsonify_status (Error MissingParams) 400)
  else
    match as_number weight with
    | None => (db, internal_server_error)
    | Some weight =>
      let weight_kg := (weight / 2)%Qc in
      let summary := summary db in
      if bool_decide (StockSummary.current_stock summary < weight_kg)%Qc then
        (db, jsonify_status (Error InsufficientStock) 400)
      else
        match as_number amount with
        | None => (db, internal_server_error)
        | Some amount =>
          let record :=
            {| StockRecord.type := type_out;
               StockRecord.weight := weight;
               StockRecord.amount := amount;
               StockRecord.created_at := now;
               StockRecord.unit := unit_jin |} in
          let session := <[next_id (records db) := record]> (records db) in
          let summary :=
            StockSummary.set_current_stock
              (StockSummary.current_stock summary - weight_kg)%Qc summary in
          let summary :=
            StockSummary.set_total_sales
              (StockSummary.total_sales summary + amount)%Qc summary in
          ({| records := session; summary := summary |},
           jsonify (Success StockOutDone))
        end
    end.

(** [GET /api/stock/summary] *)
Definition get_summary (db : database) : database * response :=
  let summary := summary db in
  let profit :=
    (StockSummary.total_sales summary - StockSummary.total_cost summary)%Qc in
  (db, jsonify (Summary (StockSummary.current_stock summary)
                        (StockSummary.total_sales summary)
                        (StockSummary.total_cost summary)
                        profit)).

(** [DELETE /api/stock/records/<int:record_id>] *)
Definition delete_record (record_id : N) (db : database)
  : database * response :=
  match records db !! record_id with
  | None => (db, jsonify_status (Error NotFound) 404)
  | Some record =>
    let summary := summary db in
    let summary :=
      match StockRecord.type record with
      | type_in =>
        let summary :=
          StockSummary.set_current_stock
            (StockSummary.current_stock summary - StockRecord.weight record)%Qc
            summary in
        StockSummary.set_total_cost
          (StockSummary.total_cost summary - StockRecord.amount record)%Qc
          summary
      | type_out =>
        let weight_kg := (StockRecord.weight record / 2)%Qc in
        let summary :=
          StockSummary.set_current_stock
            (StockSummary.current_stock summary + weight_kg)%Qc summary in
        StockSummary.set_total_sales
          (StockSummary.total_sales summary - StockRecord.amount record)%Qc
          summary
      end in
    ({| records := delete record_id (records db); summary := summary |},
     jsonify (Success RecordDeleted))
  end.

(** [PUT /api/stock/records/<int:record_id>] *)
Definition update_record (record_id : N) (data : json_body) (db : database)
  : database * response :=
  match records db !! record_id with
  | None => (db, jsonify_status (Error NotFound) 404)
  | Some record =>
    let weight := get_weight data in
    let amount := get_amount data in
    if negb (truthy weight) || negb (truthy amount) then
      (db, jsonify_status (Error MissingParams) 400)
    else
      match as_number weight, as_number amount with
      | Some weight, Some amount =>
        let summary := summary db in
        let summary :=
          match StockRecord.type record with
          | type_in =>
            let summary :=
              StockSummary.set_current_stock
                (StockSummary.current_stock summary
                 - StockRecord.weight record)%Qc summary in
            let summary :=
              StockSummary.set_total_cost
                (StockSummary.total_cost summary
                 - StockRecord.amount record)%Qc summary in
            let summary :=
              StockSummary.set_current_stock
                (StockSummary.current_stock summary + weight)%Qc summary in
            StockSummary.set_total_cost
              (StockSummary.total_cost summary + amount)%Qc summary
          | type_out =>
            let old_weight_kg := (StockRecord.weight record / 2)%Qc in
            let new_weight_kg := (weight / 2)%Qc in
            let summary :=
              StockSummary.set_current_stock
                (StockSummary.current_stock summary + old_weight_kg)%Qc
                summary in
            let summary :=
              StockSummary.set_total_sales
                (StockSummary.total_sales summary
                 - StockRecord.amount record)%Qc summary in
            let summary :=
              StockSummary.set_current_stock
                (StockSummary.current_stock summary - new_weight_kg)%Qc
                summary in
            StockSummary.set_total_sales
              (StockSummary.total_sales summary + amount)%Qc summary
          end in
        let record := StockRecord.set_weight weight record in
        let record := StockRecord.set_amount amount record in
        ({| records := <[record_id := record]> (records db);
            summary := summary |},
         jsonify (Success RecordUpdated))
      | _, _ => (db, internal_server_error)
      end
  end.

(** ** Listing with a date range *)

(** A query-string date: absent or empty (falsy), a non-empty text that
    [strptime] rejects with [ValueError], or a date. *)
Inductive date_param := NoDate | BadDate | Date (d : Z).

Definition created_micros (row : N * StockRecord.t) : Z :=
  to_micros (StockRecord.created_at row.2).

(** [order_by(StockRecord.created_at.desc())] *)
Definition created_desc (a b : N * StockRecord.t) : Prop :=
  created_micros b <= created_micros a.

#[global] Instance created_desc_dec : RelDecision created_desc.
Proof. intros a b. unfold created_desc. apply _. Defined.

(** Lower bound of the range: [StockRecord.created_at >= start_utc]. *)
Definition filter_start (tz : tzinfo) (start_time : date_param)
    (query : list (N * StockRecord.t)) : option (list (N * StockRecord.t)) :=
  match start_time with
  | NoDate => Some query
  | BadDate => None
  | Date d =>
    let start_utc := replace_tzinfo_astimezone_utc tz (strptime d) in
    Some (filter (fun row => to_micros start_utc <= created_micros row) query)
  end.

(** Upper bound of the range: [StockRecord.created_at <= end_utc]. *)
Definition filter_end (tz : tzinfo) (end_time : date_param)
    (query : list (N * StockRecord.t)) : option (list (N * StockRecord.t)) :=
  match end_time with
  | NoDate => Some query
  | BadDate => None
  | Date d =>
    let end_utc := replace_tzinfo_astimezone_utc tz (strptime d) in
    let end_utc := replace_end_of_day end_utc in
    Some (filter (fun row => created_micros row <= to_micros end_utc) query)
  end.

Definition to_row (tz : tzinfo) (row : N * StockRecord.t) : record_row :=
  let record := row.2 in
  let local_time := utc_astimezone tz (StockRecord.created_at record) in
  {| row_id := row.1;
     row_type := StockRecord.type record;
     row_weight := StockRecord.weight record;
     row_unit := StockRecord.unit record;
     row_amount := StockRecord.amount record;
     row_created_at := strftime local_time |}.

Definition get_records_in (tz : tzinfo) (start_time end_time : date_param)
    (db : database) : database * response :=
  let query := map_to_list (records db) in
  match filter_start tz start_time query ≫= filter_end tz end_time with
  | None => (db, internal_server_error)
  | Some query =>
    let records := merge_sort created_desc query in
    (db, jsonify (Records (to_row tz <$> records)))
  end.

(** [GET /api/stock/records?start_time=..&end_time=..] *)
Definition get_records : date_param -> date_param -> database
    -> database * response :=
  get_records_in Asia_Shanghai.

(** ** Request sequences *)

Inductive request :=
| POST_stock_in (now : datetime) (data : json_body)
| POST_stock_out (now : datetime) (data : json_body)
| GET_summary
| GET_records (start_time end_time : date_param)
| DELETE_record (record_id : N)
| PUT_record (record_id : N) (data : json_body).

Definition handle (req : request) (db : database) : database * response :=
  match req with
  | POST_stock_in now data => stock_in now data db
  | POST_stock_out now data => stock_out now data db
  | GET_summary => get_summary db
  | GET_records start_time end_time => get_records start_time end_time db
  | DELETE_record record_id => delete_record record_id db
  | PUT_record record_id data => update_record record_id data db
  end.

(** The committed state after serving the requests one after the other. *)
Definition serve (reqs : list request) (db : database) : database :=
  foldl (fun db req => (handle req db).1) db reqs.

(** ** What the ledger says the summary should be *)

(** Kilograms a surviving movement contributes to the stock. *)
Definition contribution (r : StockRecord.t) : Qc :=
  match StockRecord.type r with
  | type_in => StockRecord.weight r
  | type_out => (- (StockRecord.weight r / 2))%Qc
  end.

Definition cost_of (r : StockRecord.t) : Qc :=
  match StockRecord.type r with
  | type_in => StockRecord.amount r
  | type_out => 0%Qc
  end.

Definition sales_of (r : StockRecord.t) : Qc :=
  match StockRecord.type r with
  | type_in => 0%Qc
  | type_out => StockRecord.amount r
  end.

Definition ledger_sum (f : StockRecord.t -> Qc) (m : gmap N StockRecord.t) : Qc :=
  map_fold (fun _ r acc => (acc + f r)%Qc) 0%Qc m.

Record consistent (db : database) : Prop := {
  stock_consistent :
    StockSummary.current_stock (summary db) = ledger_sum contribution (records db);
  cost_consistent :
    StockSummary.total_cost (summary db) = ledger_sum cost_of (records db);
  sales_consistent :
    StockSummary.total_sales (summary db) = ledger_sum sales_of (records db)
}.

(** ** The reversal and the reapplication, as the design describes them *)

(** Undoing a movement: inbound gives back its weight and its cost, outbound
    returns half its weight (jin to kilograms) and takes back its sale. *)
Definition reversal (r : StockRecord.t) (s : StockSummary.t) : StockSummary.t :=
  match StockRecord.type r with
  | type_in =>
    {| StockSummary.current_stock :=
         (StockSummary.current_stock s - StockRecord.weight r)%Qc;
       StockSummary.total_sales := StockSummary.total_sales s;
       StockSummary.total_cost :=
         (StockSummary.total_cost s - StockRecord.amount r)%Qc |}
  | type_out =>
    {| StockSummary.current_stock :=
         (StockSummary.current_stock s + StockRecord.weight r / 2)%Qc;
       StockSummary.total_sales :=
         (StockSummary.total_sales s - StockRecord.amount r)%Qc;
       StockSummary.total_cost := StockSummary.total_cost s |}
  end.

(** Applying a movement of direction [ty], with the formula of creation. *)
Definition application (ty : record_type) (weight amount : Qc)
    (s : StockSummary.t) : StockSummary.t :=
  match ty with
  | type_in =>
    {| StockSummary.current_stock := (StockSummary.current_stock s + weight)%Qc;
       StockSummary.total_sales := StockSummary.total_sales s;
       StockSummary.total_cost := (StockSummary.total_cost s + amount)%Qc |}
  | type_out =>
    {| StockSummary.current_stock :=
         (StockSummary.current_stock s - weight / 2)%Qc;
       StockSummary.total_sales := (StockSummary.total_sales s + amount)%Qc;
       StockSummary.total_cost := StockSummary.total_cost s |}
  end.

(** ** Sample data *)

(** A body [{"weight": w, "amount": a}] with two numbers. *)
Definition numbers (w a : Qc) : json_body :=
  {| get_weight := JNum w; get_amount := JNum a |}.

(** [date(2024, 1, 15).toordinal()] *)
Definition jan_15 : Z := 738900.

Definition wall_clock (date h m : Z) : datetime :=
  {| ordinal := date; hour := h; minute := m; second := 0; microsecond := 0 |}.

Definition morning : datetime := wall_clock jan_15 2 0.

(** Stock of 3 kg bought for 12. *)
Definition three_kg : database :=
  serve [POST_stock_in morning (numbers (Q2Qc 3) (Q2Qc 12))] init_db.

(** Stock of 10 kg, then 4 jin sold for 10: record 2 is the sale. *)
Definition ten_kg_sold_four_jin : database :=
  serve [POST_stock_in morning (numbers (Q2Qc 10) (Q2Qc 30));
         POST_stock_out morning (numbers (Q2Qc 4) (Q2Qc 10))] init_db.

(** 10 kg bought for 30 and all of it (20 jin) sold for 50: record 1 is the
    purchase, record 2 the sale, and the stock is 0. *)
Definition sold_out : database :=
  serve [POST_stock_in morning (numbers (Q2Qc 10) (Q2Qc 30));
         POST_stock_out morning (numbers (Q2Qc 20) (Q2Qc 50))] init_db.

(** 5 kg bought at 15:50 UTC on 2024-01-15, that is 23:50 of the same day
    in Shanghai. *)
Definition late_evening : datetime := wall_clock jan_15 15 50.

Definition bought_late_evening : database :=
  serve [POST_stock_in late_evening (numbers (Q2Qc 5) (Q2Qc 20))] init_db.

(** 5 kg bought at 15:55 UTC on 2024-01-14, that is 23:55 of the 14th in
    Shanghai. *)
Definition bought_the_day_before : database :=
  serve [POST_stock_in (wall_clock (jan_15 - 1) 15 55) (numbers (Q2Qc 5) (Q2Qc 20))]
        init_db.

(** ** Shapes of requests and records used in the further properties *)

(** Reads, outbound creations, and inbound creations whose weight is not a
    negative number: the requests that go through the stock check or cannot
    lower the stock. *)
Definition create_or_read (req : request) : Prop :=
  match req with
  | POST_stock_in _ data =>
    forall w, as_number (get_weight data) = Some w -> (0 <= w)%Qc
  | POST_stock_out _ _ | GET_summary | GET_records _ _ => True
  | DELETE_record _ | PUT_record _ _ => False
  end.

(** What every row the handlers write looks like: weight and amount passed
    the truthiness test, and the unit goes with the direction. *)
Definition well_formed (r : StockRecord.t) : Prop :=
  StockRecord.weight r <> 0%Qc
  /\ StockRecord.amount r <> 0%Qc
  /\ StockRecord.unit r
     = match StockRecord.type r with
       | type_in => unit_kg
       | type_out => unit_jin
       end.

(** Rows of a listing from the most recent to the oldest, by the time they
    show. *)
Definition shown_desc (a b : record_row) : Prop :=
  to_micros (row_created_at b) <= to_micros (row_created_at a).

(** * Proofs *)

(** ** Sums over the ledger *)

Section ledger_sum.
Variable f : StockRecord.t -> Qc.

Lemma ledger_sum_empty : ledger_sum f ∅ = 0%Qc.
Proof. apply map_fold_empty. Qed.

Lemma ledger_sum_insert (m : gmap N StockRecord.t) i r :
  m !! i = None ->
  ledger_sum f (<[i:=r]> m) = (ledger_sum f m + f r)%Qc.
Proof.
  intros Hi. unfold ledger_sum.
  rewrite map_fold_insert_L; [done| |done].
  intros; ring.
Qed.

Lemma ledger_sum_delete (m : gmap N StockRecord.t) i r :
  m !! i = Some r ->
  ledger_sum f (delete i m) = (ledger_sum f m - f r)%Qc.
Proof.
  intros Hi.
  rewrite <- (insert_delete_id m i r Hi) at 2.
  rewrite ledger_sum_insert by apply lookup_delete_eq.
  ring.
Qed.

Lemma ledger_sum_update (m : gmap N StockRecord.t) i r r' :
  m !! i = Some r ->
  ledger_sum f (<[i:=r']> m) = (ledger_sum f m - f r + f r')%Qc.
Proof.
  intros Hi.
  rewrite <- insert_delete_eq.
  rewrite ledger_sum_insert by apply lookup_delete_eq.
  by rewrite (ledger_sum_delete m i r).
Qed.
End ledger_sum.

(** The sum runs over the rows of the table, each key once. *)
Lemma ledger_sum_rows (f : StockRecord.t -> Qc) (m : gmap N StockRecord.t) :
  ledger_sum f m
  = foldr (fun row acc => (acc + f row.2)%Qc) 0%Qc (map_to_list m)
  /\ NoDup (map_to_list m).*1.
Proof.
  split; [|apply NoDup_fst_map_to_list].
  unfold ledger_sum. rewrite map_fold_foldr.
  induction (map_to_list m) as [|[i r] rows IH]; simpl; congruence.
Qed.

(** ** Fresh primary keys *)

Lemma max_id_insert (m : gmap N StockRecord.t) i r :
  m !! i = None -> max_id (<[i:=r]> m) = N.max i (max_id m).
Proof.
  intros Hi. unfold max_id.
  rewrite map_fold_insert_L; [done| |done].
  intros; lia.
Qed.

Lemma max_id_bound (m : gmap N StockRecord.t) i r :
  m !! i = Some r -> (i <= max_id m)%N.
Proof.
  revert i r. induction m as [|j x m Hj IH] using map_ind; intros i r Hi.
  - by rewrite lookup_empty in Hi.
  - rewrite max_id_insert by done.
    destruct (decide (j = i)) as [->|Hne].
    + lia.
    + rewrite lookup_insert_ne in Hi by done.
      specialize (IH _ _ Hi). lia.
Qed.

Lemma next_id_fresh (m : gmap N StockRecord.t) : m !! next_id m = None.
Proof.
  destruct (m !! next_id m) as [r|] eqn:E; [|done].
  apply max_id_bound in E. unfold next_id in E. lia.
Qed.

(** ** Every handler keeps the summary in agreement with the ledger *)

Lemma init_db_consistent : consistent init_db.
Proof. split; simpl; by rewrite ledger_sum_empty. Qed.

Lemma stock_in_consistent now data db :
  consistent db -> consistent (stock_in now data db).1.
Proof.
  intros [Hs Hc Hp]. unfold stock_in.
  destruct (negb (truthy (get_weight data)) || negb (truthy (get_amount data)));
    [done|].
  destruct (as_number (get_weight data)) as [w|]; [|done].
  destruct (as_number (get_amount data)) as [a|]; [|done].
  split; simpl; rewrite ledger_sum_insert by apply next_id_fresh; simpl.
  - by rewrite Hs.
  - by rewrite Hc.
  - rewrite Hp. unfold sales_of; simpl. ring.
Qed.

Lemma stock_out_consistent now data db :
  consistent db -> consistent (stock_out now data db).1.
Proof.
  intros [Hs Hc Hp]. unfold stock_out.
  destruct (negb (truthy (get_weight data)) || negb (truthy (get_amount data)));
    [done|].
  destruct (as_number (get_weight data)) as [w|]; [|done].
  case_bool_decide; [done|].
  destruct (as_number (get_amount data)) as [a|]; [|done].
  split; simpl; rewrite ledger_sum_insert by apply next_id_fresh; simpl.
  - rewrite Hs. unfold contribution; simpl. ring.
  - rewrite Hc. unfold cost_of; simpl. ring.
  - by rewrite Hp.
Qed.

Lemma delete_record_consistent record_id db :
  consistent db -> consistent (delete_record record_id db).1.
Proof.
  intros [Hs Hc Hp]. unfold delete_record.
  destruct (records db !! record_id) as [r|] eqn:Hr; [|done].
  split; simpl; rewrite (ledger_sum_delete _ _ _ _ Hr), <- ?Hs, <- ?Hc, <- ?Hp;
    unfold contribution, cost_of, sales_of;
    destruct (StockRecord.type r); simpl; ring.
Qed.

Lemma update_record_consistent record_id data db :
  consistent db -> consistent (update_record record_id data db).1.
Proof.
  intros [Hs Hc Hp]. unfold update_record.
  destruct (records db !! record_id) as [r|] eqn:Hr; [|done].
  destruct (negb (truthy (get_weight data)) || negb (truthy (get_amount data)));
    [done|].
  destruct (as_number (get_weight data)) as [w|]; [|done].
  destruct (as_number (get_amount data)) as [a|]; [|done].
  split; simpl; rewrite (ledger_sum_update _ _ _ _ _ Hr), <- ?Hs, <- ?Hc, <- ?Hp;
    unfold contribution, cost_of, sales_of; simpl;
    destruct (StockRecord.type r); simpl; ring.
Qed.

Lemma get_records_in_state tz start_time end_time db :
  (get_records_in tz start_time end_time db).1 = db.
Proof.
  unfold get_records_in.
  by destruct (filter_start tz start_time (map_to_list (records db))
                 ≫= filter_end tz end_time).
Qed.

Lemma handle_consistent req db :
  consistent db -> consistent (handle req db).1.
Proof.
  destruct req; simpl.
  - apply stock_in_consistent.
  - apply stock_out_consistent.
  - done.
  - unfold get_records. by rewrite get_records_in_state.
  - apply delete_record_consistent.
  - apply update_record_consistent.
Qed.

Lemma serve_consistent reqs db :
  consistent db -> consistent (serve reqs db).
Proof.
  revert db. induction reqs as [|req reqs IH]; intros db Hdb; [done|].
  apply IH. by apply handle_consistent.
Qed.


(** ** The handlers on well-formed numeric bodies *)

Lemma truthy_JNum q : truthy (JNum q) = true <-> q <> 0%Qc.
Proof.
  simpl. case_bool_decide; simpl; split; intros; congruence.
Qed.

Lemma numbers_pass w a :
  w <> 0%Qc -> a <> 0%Qc ->
  negb (truthy (JNum w)) || negb (truthy (JNum a)) = false.
Proof.
  intros Hw Ha.
  apply truthy_JNum in Hw, Ha. by rewrite Hw, Ha.
Qed.

Lemma stock_in_numbers now w a db :
  w <> 0%Qc -> a <> 0%Qc ->
  stock_in now (numbers w a) db
  = ({| records :=
          <[next_id (records db) :=
              {| StockRecord.type := type_in; StockRecord.weight := w;
                 StockRecord.amount := a; StockRecord.created_at := now;
                 StockRecord.unit := unit_kg |}]> (records db);
        summary := application type_in w a (summary db) |},
     jsonify (Success StockInDone)).
Proof.
  intros Hw Ha. unfold stock_in, numbers; cbn [get_weight get_amount].
  by rewrite numbers_pass.
Qed.

Lemma stock_out_rejected now w a db :
  w <> 0%Qc -> a <> 0%Qc ->
  (StockSummary.current_stock (summary db) < w / 2)%Qc ->
  stock_out now (numbers w a) db
  = (db, jsonify_status (Error InsufficientStock) 400).
Proof.
  intros Hw Ha Hlt. unfold stock_out, numbers; cbn [get_weight get_amount].
  rewrite numbers_pass by done. cbn [as_number].
  by rewrite bool_decide_eq_true_2.
Qed.

Lemma stock_out_numbers now w a db :
  w <> 0%Qc -> a <> 0%Qc ->
  ~ (StockSummary.current_stock (summary db) < w / 2)%Qc ->
  stock_out now (numbers w a) db
  = ({| records :=
          <[next_id (records db) :=
              {| StockRecord.type := type_out; StockRecord.weight := w;
                 StockRecord.amount := a; StockRecord.created_at := now;
                 StockRecord.unit := unit_jin |}]> (records db);
        summary := application type_out w a (summary db) |},
     jsonify (Success StockOutDone)).
Proof.
  intros Hw Ha Hge. unfold stock_out, numbers; cbn [get_weight get_amount].
  rewrite numbers_pass by done. cbn [as_number].
  by rewrite bool_decide_eq_false_2.
Qed.

Lemma delete_record_found record_id r db :
  records db !! record_id = Some r ->
  delete_record record_id db
  = ({| records := delete record_id (records db);
        summary := reversal r (summary db) |},
     jsonify (Success RecordDeleted)).
Proof.
  intros Hr. unfold delete_record, reversal. rewrite Hr.
  by destruct (StockRecord.type r).
Qed.

Lemma update_record_numbers record_id r w a db :
  records db !! record_id = Some r ->
  w <> 0%Qc -> a <> 0%Qc ->
  update_record record_id (numbers w a) db
  = ({| records :=
          <[record_id :=
              {| StockRecord.type := StockRecord.type r;
                 StockRecord.weight := w;
                 StockRecord.amount := a;
                 StockRecord.created_at := StockRecord.created_at r;
                 StockRecord.unit := StockRecord.unit r |}]> (records db);
        summary :=
          application (StockRecord.type r) w a (reversal r (summary db)) |},
     jsonify (Success RecordUpdated)).
Proof.
  intros Hr Hw Ha. unfold update_record, numbers; cbn [get_weight get_amount].
  rewrite Hr, numbers_pass by done. cbn [as_number].
  unfold reversal, application, StockRecord.set_amount, StockRecord.set_weight.
  simpl. by destruct (StockRecord.type r).
Qed.

Lemma delete_record_missing record_id db :
  records db !! record_id = None ->
  delete_record record_id db = (db, jsonify_status (Error NotFound) 404).
Proof. intros Hr. unfold delete_record. by rewrite Hr. Qed.

Lemma update_record_missing record_id data db :
  records db !! record_id = None ->
  update_record record_id data db = (db, jsonify_status (Error NotFound) 404).
Proof. intros Hr. unfold update_record. by rewrite Hr. Qed.

(** ** Outbound creation against insufficient stock *)



(** ** Update: reversal, then reapplication *)



(** ** Inbound creation and the summary read *)

Lemma get_summary_response db :
  (get_summary db).2
  = jsonify (Summary (StockSummary.current_stock (summary db))
                     (StockSummary.total_sales (summary db))
                     (StockSummary.total_cost (summary db))
                     (StockSummary.total_sales (summary db)
                      - StockSummary.total_cost (summary db))%Qc).
Proof. reflexivity. Qed.



(** ** Deletion: the reversal alone *)

(** C7. For an existing record [delete_record] succeeds, commits the summary
    with the record's contribution undone (inbound: [current_stock] loses the
    weight and [total_cost] the amount; outbound: [current_stock] regains
    half the weight and [total_sales] loses the amount), which is the
    reversal half of the update, and removes the record and no other.
    Deleting an inbound record of 3 kg bought for 12 from a stock of 3 and a
    total cost of 12 brings both back to 0. *)
Theorem delete_record_reverses
    (record_id : N) (r : StockRecord.t) (db : database) :
  records db !! record_id = Some r ->
  let result := delete_record record_id db in
  let s := summary db in
  let s' := summary result.1 in
  result.2 = jsonify (Success RecordDeleted)
  /\ s' = reversal r s
  /\ match StockRecord.type r with
     | type_in =>
       StockSummary.current_stock s'
       = (StockSummary.current_stock s - StockRecord.weight r)%Qc
       /\ StockSummary.total_cost s'
          = (StockSummary.total_cost s - StockRecord.amount r)%Qc
       /\ StockSummary.total_sales s' = StockSummary.total_sales s
     | type_out =>
       StockSummary.current_stock s'
       = (StockSummary.current_stock s + StockRecord.weight r / 2)%Qc
       /\ StockSummary.total_sales s'
          = (StockSummary.total_sales s - StockRecord.amount r)%Qc
       /\ StockSummary.total_cost s' = StockSummary.total_cost s
     end
  /\ records result.1 !! record_id = None
  /\ (forall j, j <> record_id -> records result.1 !! j = records db !! j)
  /\ (StockRecord.type r = type_in ->
      StockRecord.weight r = Q2Qc 3 -> StockRecord.amount r = Q2Qc 12 ->
      StockSummary.current_stock s = Q2Qc 3 ->
      StockSummary.total_cost s = Q2Qc 12 ->
      StockSummary.current_stock s' = 0%Qc
      /\ StockSummary.total_cost s' = 0%Qc).
Proof.
  intros Hr. cbv zeta.
  rewrite (delete_record_found _ _ _ Hr). cbn [fst snd records summary].
  split; [done|]. split; [done|]. split; [|split; [|split]].
  - unfold reversal. by destruct (StockRecord.type r).
  - apply lookup_delete_eq.
  - intros j Hj. by rewrite lookup_delete_ne.
  - intros Hty Hw Ha Hs Hc. unfold reversal. rewrite Hty. simpl.
    by rewrite Hw, Ha, Hs, Hc.
Qed.

Lemma delete_record_reverses_witness :
  let purchase :=
    {| StockRecord.type := type_in; StockRecord.weight := Q2Qc 3;
       StockRecord.amount := Q2Qc 12; StockRecord.created_at := morning;
       StockRecord.unit := unit_kg |} in
  let result := delete_record 1 three_kg in
  records three_kg !! 1%N = Some purchase
  /\ StockSummary.current_stock (summary three_kg) = Q2Qc 3
  /\ StockSummary.total_cost (summary three_kg) = Q2Qc 12
  /\ result.2 = jsonify (Success RecordDeleted)
  /\ records result.1 !! 1%N = None
  /\ StockSummary.current_stock (summary result.1) = 0%Qc
  /\ StockSummary.total_cost (summary result.1) = 0%Qc.
Proof.
  intros purchase result.
  assert (Hr : records three_kg !! 1%N = Some purchase) by reflexivity.
  destruct (delete_record_reverses 1 purchase three_kg Hr)
    as (Hresp & _ & _ & Hgone & _ & Hzero).
  split; [exact Hr|]. split; [reflexivity|]. split; [reflexivity|].
  split; [exact Hresp|]. split; [exact Hgone|].
  apply Hzero; reflexivity.
Defined.

(** ** Unknown record *)



(** ** Read-only requests *)

(** C10. The summary read and the record listing, for every choice of the
    two date parameters (absent, malformed or a date), commit nothing: the
    state after the request, ledger and summary, is the state before it. *)
Theorem read_only_requests (db : database) :
  (get_summary db).1 = db
  /\ (forall start_time end_time : date_param,
        (get_records start_time end_time db).1 = db).
Proof.
  split; [done|].
  intros start_time end_time. apply get_records_in_state.
Qed.

(** ** No stock check on update and delete *)

Lemma update_record_never_insufficient record_id data db :
  (update_record record_id data db).2
  <> jsonify_status (Error InsufficientStock) 400.
Proof.
  unfold update_record.
  destruct (records db !! record_id) as [r|]; [|discriminate].
  destruct (negb (truthy (get_weight data)) || negb (truthy (get_amount data)));
    [discriminate|].
  destruct (as_number (get_weight data)), (as_number (get_amount data));
    discriminate.
Qed.

Lemma delete_record_never_insufficient record_id db :
  (delete_record record_id db).2
  <> jsonify_status (Error InsufficientStock) 400.
Proof.
  unfold delete_record.
  destruct (records db !! record_id) as [r|]; discriminate.
Qed.

(** C5. Neither [update_record] nor [delete_record] checks the stock it
    leaves behind: they never answer "insufficient stock", and from a state
    reached from first boot (10 kg bought, then all 20 jin sold) shrinking
    the purchase to 4 kg succeeds and commits a stock of -6, and deleting the
    purchase succeeds and commits a stock of -10. *)
Theorem update_and_delete_skip_the_stock_check :
  (forall record_id data db,
     (update_record record_id data db).2
     <> jsonify_status (Error InsufficientStock) 400)
  /\ (forall record_id db,
        (delete_record record_id db).2
        <> jsonify_status (Error InsufficientStock) 400)
  /\ (exists (reqs : list request) (record_id : N) (w a : Qc),
        let db := serve reqs init_db in
        let result := update_record record_id (numbers w a) db in
        w <> 0%Qc /\ a <> 0%Qc
        /\ (0 <= StockSummary.current_stock (summary db))%Qc
        /\ result.2 = jsonify (Success RecordUpdated)
        /\ (StockSummary.current_stock (summary result.1) < 0)%Qc)
  /\ (exists (reqs : list request) (record_id : N),
        let db := serve reqs init_db in
        let result := delete_record record_id db in
        (0 <= StockSummary.current_stock (summary db))%Qc
        /\ result.2 = jsonify (Success RecordDeleted)
        /\ (StockSummary.current_stock (summary result.1) < 0)%Qc).
Proof.
  split; [apply update_record_never_insufficient|].
  split; [apply delete_record_never_insufficient|].
  split.
  - exists [POST_stock_in morning (numbers (Q2Qc 10) (Q2Qc 30));
            POST_stock_out morning (numbers (Q2Qc 20) (Q2Qc 50))],
           1%N, (Q2Qc 4), (Q2Qc 12).
    cbv zeta. split; [discriminate|]. split; [discriminate|].
    split; [discriminate|]. split; reflexivity.
  - exists [POST_stock_in morning (numbers (Q2Qc 10) (Q2Qc 30));
            POST_stock_out morning (numbers (Q2Qc 20) (Q2Qc 50))],
           1%N.
    cbv zeta. split; [discriminate|]. split; reflexivity.
Qed.

Example sold_out_then_shrunk :
  StockSummary.current_stock (summary sold_out) = 0%Qc
  /\ StockSummary.current_stock
       (summary (update_record 1 (numbers (Q2Qc 4) (Q2Qc 12)) sold_out).1)
     = Q2Qc (-6)
  /\ StockSummary.current_stock (summary (delete_record 1 sold_out).1)
     = Q2Qc (-10).
Proof. repeat split. Qed.

(** ** Validation is a truthiness test *)

Lemma falsy_values (v : json) :
  truthy v = false
  <-> v = JNull \/ v = JBool false \/ v = JNum 0%Qc \/ v = JStr EmptyString.
Proof.
  split.
  - destruct v as [|[]|q|s]; simpl; try discriminate; auto.
    + case_bool_decide; [subst; auto | discriminate].
    + case_bool_decide; [subst; auto | discriminate].
  - intros [-> | [-> | [-> | ->]]]; reflexivity.
Qed.

Lemma validation_rejects (w a : json) :
  negb (truthy w) || negb (truthy a) = true
  <-> truthy w = false \/ truthy a = false.
Proof. destruct (truthy w), (truthy a); simpl; intuition congruence. Qed.

Lemma stock_in_missing_params now data db :
  (stock_in now data db).2 = jsonify_status (Error MissingParams) 400
  <-> truthy (get_weight data) = false \/ truthy (get_amount data) = false.
Proof.
  rewrite <- validation_rejects. unfold stock_in.
  destruct (negb (truthy (get_weight data)) || negb (truthy (get_amount data))).
  - done.
  - destruct (as_number (get_weight data)), (as_number (get_amount data));
      simpl; split; discriminate.
Qed.

Lemma stock_out_missing_params now data db :
  (stock_out now data db).2 = jsonify_status (Error MissingParams) 400
  <-> truthy (get_weight data) = false \/ truthy (get_amount data) = false.
Proof.
  rewrite <- validation_rejects. unfold stock_out.
  destruct (negb (truthy (get_weight data)) || negb (truthy (get_amount data))).
  - done.
  - destruct (as_number (get_weight data)); [|split; discriminate].
    case_bool_decide; [split; discriminate|].
    destruct (as_number (get_amount data)); split; discriminate.
Qed.

Lemma update_record_missing_params record_id r data db :
  records db !! record_id = Some r ->
  (update_record record_id data db).2 = jsonify_status (Error MissingParams) 400
  <-> truthy (get_weight data) = false \/ truthy (get_amount data) = false.
Proof.
  intros Hr. rewrite <- validation_rejects. unfold update_record. rewrite Hr.
  destruct (negb (truthy (get_weight data)) || negb (truthy (get_amount data))).
  - done.
  - destruct (as_number (get_weight data)), (as_number (get_amount data));
      simpl; split; discriminate.
Qed.

Lemma missing_params_commit_nothing now record_id data db :
  (truthy (get_weight data) = false \/ truthy (get_amount data) = false) ->
  (stock_in now data db).1 = db
  /\ (stock_out now data db).1 = db
  /\ (update_record record_id data db).1 = db.
Proof.
  intros Hfalsy. apply validation_rejects in Hfalsy.
  unfold stock_in, stock_out, update_record. rewrite Hfalsy.
  by destruct (records db !! record_id).
Qed.

Lemma half_negative (w : Qc) : (w < 0)%Qc -> (w / 2 < 0)%Qc.
Proof.
  intros Hw.
  replace 0%Qc with (0 * / 2)%Qc by ring.
  apply Qcmult_lt_compat_r; [reflexivity | done].
Qed.

Lemma negative_weight_passes_stock_check (stock w : Qc) :
  (0 <= stock)%Qc -> (w < 0)%Qc -> ~ (stock < w / 2)%Qc.
Proof.
  intros Hstock Hw Hlt. apply half_negative in Hw.
  by apply (Qclt_not_le _ _ (Qclt_trans _ _ _ Hlt Hw)).
Qed.



(** ** The date range of the listing *)

Lemma to_micros_of_micros (t : Z) : to_micros (of_micros t) = t.
Proof.
  unfold to_micros, of_micros; cbn [ordinal hour minute second microsecond].
  unfold US_PER_DAY, US_PER_HOUR, US_PER_MINUTE, US_PER_SECOND.
  Z.div_mod_to_equations. lia.
Qed.

(** The lower bound the code compares with: midnight of the start date,
    read as UTC, minus the zone's default offset. *)
Lemma start_utc_micros tz d :
  to_micros (replace_tzinfo_astimezone_utc tz (strptime d))
  = d * US_PER_DAY - default_utcoffset tz.
Proof.
  unfold replace_tzinfo_astimezone_utc. rewrite to_micros_of_micros.
  unfold to_micros, strptime; cbn [ordinal hour minute second microsecond]. lia.
Qed.

(** The upper bound the code compares with.  [replace] sets the clock of the
    UTC datetime, whose date is the day before the end date for any zone
    east of Greenwich: the bound is the last microsecond of that UTC day. *)
Lemma end_utc_micros tz d :
  0 < default_utcoffset tz <= US_PER_DAY ->
  to_micros (replace_end_of_day (replace_tzinfo_astimezone_utc tz (strptime d)))
  = d * US_PER_DAY - 1.
Proof.
  intros Hoff.
  unfold replace_end_of_day, replace_tzinfo_astimezone_utc, of_micros, to_micros,
    strptime; cbn [ordinal hour minute second microsecond].
  unfold US_PER_DAY, US_PER_HOUR, US_PER_MINUTE, US_PER_SECOND in *.
  Z.div_mod_to_equations. lia.
Qed.

Lemma filter_start_subset tz start_time query query' row :
  filter_start tz start_time query = Some query' ->
  row ∈ query' -> row ∈ query.
Proof.
  destruct start_time as [| |d]; simpl; intros [= <-]; [done|].
  rewrite list_elem_of_filter. tauto.
Qed.

Lemma filter_end_bound tz d query query' row :
  0 < default_utcoffset tz <= US_PER_DAY ->
  filter_end tz (Date d) query = Some query' ->
  row ∈ query' ->
  created_micros row <= d * US_PER_DAY - 1 /\ row ∈ query.
Proof.
  intros Hoff [= <-]. rewrite list_elem_of_filter.
  by rewrite (end_utc_micros tz d Hoff).
Qed.

(** With both dates given, the listing holds exactly the records created
    from [start * day - default offset] through [end * day - 1] on the UTC
    time line. *)
Lemma get_records_in_window tz s e db :
  0 < default_utcoffset tz <= US_PER_DAY ->
  exists rows,
    (get_records_in tz (Date s) (Date e) db).2 = jsonify (Records rows)
    /\ forall record_id,
         record_id ∈ row_id <$> rows
         <-> exists r,
               records db !! record_id = Some r
               /\ s * US_PER_DAY - default_utcoffset tz
                  <= to_micros (StockRecord.created_at r)
                  <= e * US_PER_DAY - 1.
Proof.
  intros Hoff. unfold get_records_in. cbn [filter_start filter_end mbind option_bind].
  eexists. split; [reflexivity|].
  intros record_id. rewrite <- list_fmap_compose, list_elem_of_fmap.
  setoid_rewrite merge_sort_Permutation.
  do 2 setoid_rewrite list_elem_of_filter.
  setoid_rewrite elem_of_map_to_list'.
  rewrite (end_utc_micros tz e Hoff), (start_utc_micros tz s).
  unfold created_micros. split.
  - intros ([i r] & -> & Hend & Hstart & Hr). simpl in *. eauto.
  - intros (r & Hr & Hstart & Hend). exists (record_id, r). simpl. eauto.
Qed.

(** A record made at 08:00 or later, Shanghai time, on the end date is not
    listed, whatever the start date. *)
Lemma get_records_end_date_cut record_id r d start_time db rows :
  records db !! record_id = Some r ->
  ordinal (utc_astimezone Asia_Shanghai (StockRecord.created_at r)) = d ->
  8 <= hour (utc_astimezone Asia_Shanghai (StockRecord.created_at r)) ->
  (get_records start_time (Date d) db).2 = jsonify (Records rows) ->
  record_id ∉ row_id <$> rows.
Proof.
  intros Hr Hday Hhour. unfold get_records, get_records_in.
  destruct (filter_start Asia_Shanghai start_time (map_to_list (records db)))
    as [query|] eqn:Hstart; [|discriminate].
  cbn [mbind option_bind].
  destruct (filter_end Asia_Shanghai (Date d) query) as [query'|] eqn:Hend;
    [|discriminate].
  intros [= <-]. rewrite <- list_fmap_compose, list_elem_of_fmap.
  intros ([i r'] & -> & Hin). simpl in *.
  rewrite merge_sort_Permutation in Hin.
  assert (Hoff : 0 < default_utcoffset Asia_Shanghai <= US_PER_DAY)
    by (split; [reflexivity | discriminate]).
  destruct (filter_end_bound _ _ _ _ _ Hoff Hend Hin) as [Hbound Hin'].
  apply (filter_start_subset _ _ _ _ _ Hstart) in Hin'.
  clear Hin. rename Hin' into Hin.
  apply elem_of_map_to_list in Hin. rewrite Hr in Hin. injection Hin as <-.
  unfold created_micros in Hbound. simpl in Hbound.
  revert Hday Hhour Hbound.
  unfold utc_astimezone, of_micros, Asia_Shanghai;
    cbn [ordinal hour current_utcoffset].
  unfold US_PER_DAY, US_PER_HOUR, US_PER_MINUTE, US_PER_SECOND.
  generalize (to_micros (StockRecord.created_at r)). intros t.
  Z.div_mod_to_equations. lia.
Qed.

(** C4 (the code departs from it).  A purchase recorded at 15:50 UTC on
    2024-01-15 is shown by the unfiltered listing at 23:50 of that day, local
    time; the listing with [start_time = end_time = 2024-01-15] does not
    contain it: it is empty. *)
Theorem get_records_drops_the_evening_of_the_end_date :
  (get_records NoDate NoDate bought_late_evening).2
  = jsonify (Records [ {| row_id := 1; row_type := type_in;
                          row_weight := Q2Qc 5; row_unit := unit_kg;
                          row_amount := Q2Qc 20;
                          row_created_at := wall_clock jan_15 23 50 |} ])
  /\ (get_records (Date jan_15) (Date jan_15) bought_late_evening).2
     = jsonify (Records []).
Proof. split; reflexivity. Qed.

(** The lower bound is off as well, by the six minutes of the zone's local
    mean time: a purchase of 23:55 on the 14th, local time, is listed from
    the 15th on. *)
Example get_records_lists_the_last_minutes_of_the_day_before :
  (get_records (Date jan_15) NoDate bought_the_day_before).2
  = jsonify (Records [ {| row_id := 1; row_type := type_in;
                          row_weight := Q2Qc 5; row_unit := unit_kg;
                          row_amount := Q2Qc 20;
                          row_created_at := wall_clock (jan_15 - 1) 23 55 |} ]).
Proof. reflexivity. Qed.

(** * Further properties of the handlers *)

(** ** Errors are atomic *)

Lemma get_records_in_status tz start_time end_time db :
  status (get_records_in tz start_time end_time db).2 = 200
  \/ status (get_records_in tz start_time end_time db).2 = 500.
Proof.
  unfold get_records_in.
  destruct (filter_start tz start_time (map_to_list (records db))
              ≫= filter_end tz end_time); simpl; auto.
Qed.

(** X1. Every response carries one of the statuses 200, 400, 404 and 500,
    and a request answered with anything but 200 commits nothing: the
    ledger and the summary are the ones before the request. *)
Theorem failed_requests_commit_nothing (req : request) (db : database) :
  (status (handle req db).2 = 200 \/ status (handle req db).2 = 400
   \/ status (handle req db).2 = 404 \/ status (handle req db).2 = 500)
  /\ (status (handle req db).2 <> 200 -> (handle req db).1 = db).
Proof.
  destruct req as [now data|now data| |start_time end_time|record_id
                  |record_id data]; cbn [handle].
  - unfold stock_in.
    destruct (negb (truthy (get_weight data)) || negb (truthy (get_amount data)));
      [simpl; auto|].
    destruct (as_number (get_weight data)), (as_number (get_amount data));
      simpl; split; auto; congruence.
  - unfold stock_out.
    destruct (negb (truthy (get_weight data)) || negb (truthy (get_amount data)));
      [simpl; auto|].
    destruct (as_number (get_weight data)); [|simpl; auto 6].
    case_bool_decide; [simpl; auto|].
    destruct (as_number (get_amount data)); simpl; split; auto 6; congruence.
  - simpl; auto.
  - unfold get_records. rewrite get_records_in_state. split; [|done].
    destruct (get_records_in_status Asia_Shanghai start_time end_time db);
      auto 6.
  - unfold delete_record.
    destruct (records db !! record_id); simpl; split; auto; congruence.
  - unfold update_record.
    destruct (records db !! record_id); [|simpl; auto 6].
    destruct (negb (truthy (get_weight data)) || negb (truthy (get_amount data)));
      [simpl; auto|].
    destruct (as_number (get_weight data)), (as_number (get_amount data));
      simpl; split; auto 6; congruence.
Qed.

Lemma failed_requests_commit_nothing_witness :
  status (handle (POST_stock_out morning (numbers (Q2Qc 10) (Q2Qc 50)))
            three_kg).2 <> 200
  /\ (handle (POST_stock_out morning (numbers (Q2Qc 10) (Q2Qc 50)))
        three_kg).1 = three_kg.
Proof.
  assert (H : status (handle (POST_stock_out morning
                                (numbers (Q2Qc 10) (Q2Qc 50))) three_kg).2
              <> 200) by discriminate.
  split; [exact H|].
  exact (proj2 (failed_requests_commit_nothing _ _) H).
Defined.

(** ** The stock check of outbound creation *)

Lemma stock_after_check (stock weight_kg : Qc) :
  ~ (stock < weight_kg)%Qc -> (0 <= stock - weight_kg)%Qc.
Proof.
  intros Hge. apply Qcnot_lt_le in Hge.
  by apply Qcle_minus_iff in Hge.
Qed.

Lemma stock_out_keeps_stock_nonnegative now data db :
  (0 <= StockSummary.current_stock (summary db))%Qc ->
  (0 <= StockSummary.current_stock (summary (stock_out now data db).1))%Qc.
Proof.
  intros Hdb. unfold stock_out.
  destruct (negb (truthy (get_weight data)) || negb (truthy (get_amount data)));
    [done|].
  destruct (as_number (get_weight data)) as [w|]; [|done].
  case_bool_decide as Hlt; [done|].
  destruct (as_number (get_amount data)); [|done].
  simpl. by apply stock_after_check.
Qed.

(** X2. An outbound creation that is answered 200 never overdraws: the
    stock it commits is not negative, whatever the state before it. *)
Theorem stock_out_never_overdraws
    (now : datetime) (data : json_body) (db : database) :
  status (stock_out now data db).2 = 200 ->
  (0 <= StockSummary.current_stock (summary (stock_out now data db).1))%Qc.
Proof.
  unfold stock_out.
  destruct (negb (truthy (get_weight data)) || negb (truthy (get_amount data)));
    [discriminate|].
  destruct (as_number (get_weight data)) as [w|]; [|discriminate].
  case_bool_decide as Hlt; [discriminate|].
  destruct (as_number (get_amount data)); [|discriminate].
  intros _. simpl. by apply stock_after_check.
Qed.

Lemma stock_out_never_overdraws_witness :
  status (stock_out morning (numbers (Q2Qc 6) (Q2Qc 50)) three_kg).2 = 200
  /\ (0 <= StockSummary.current_stock
             (summary (stock_out morning (numbers (Q2Qc 6) (Q2Qc 50))
                         three_kg).1))%Qc.
Proof.
  assert (H : status (stock_out morning (numbers (Q2Qc 6) (Q2Qc 50))
                        three_kg).2 = 200) by reflexivity.
  split; [exact H|].
  exact (stock_out_never_overdraws _ _ _ H).
Defined.

Lemma stock_in_keeps_stock_nonnegative now data db :
  (forall w, as_number (get_weight data) = Some w -> (0 <= w)%Qc) ->
  (0 <= StockSummary.current_stock (summary db))%Qc ->
  (0 <= StockSummary.current_stock (summary (stock_in now data db).1))%Qc.
Proof.
  intros Hw Hdb. unfold stock_in.
  destruct (negb (truthy (get_weight data)) || negb (truthy (get_amount data)));
    [done|].
  destruct (as_number (get_weight data)) as [w|]; [|done].
  destruct (as_number (get_amount data)); [|done].
  simpl. specialize (Hw w eq_refl).
  replace 0%Qc with (0 + 0)%Qc by ring.
  by apply Qcplus_le_compat.
Qed.

(** X3. As long as movements are only created (inbound with a weight that is
    not negative, outbound through the stock check) or read, a stock that is
    not negative stays so, request after request. *)
Theorem creations_keep_stock_nonnegative
    (reqs : list request) (db : database) :
  Forall create_or_read reqs ->
  (0 <= StockSummary.current_stock (summary db))%Qc ->
  (0 <= StockSummary.current_stock (summary (serve reqs db)))%Qc.
Proof.
  intros Hreqs. revert db.
  induction Hreqs as [|req reqs Hreq _ IH]; intros db Hdb; [done|].
  apply IH. destruct req; simpl in *.
  - by apply stock_in_keeps_stock_nonnegative.
  - by apply stock_out_keeps_stock_nonnegative.
  - done.
  - unfold get_records. by rewrite get_records_in_state.
  - done.
  - done.
Qed.

Lemma creations_keep_stock_nonnegative_witness :
  let reqs := [POST_stock_in morning (numbers (Q2Qc 10) (Q2Qc 30));
               POST_stock_out morning (numbers (Q2Qc 20) (Q2Qc 50));
               POST_stock_out morning (numbers (Q2Qc 1) (Q2Qc 3))] in
  Forall create_or_read reqs
  /\ (0 <= StockSummary.current_stock (summary init_db))%Qc
  /\ (0 <= StockSummary.current_stock (summary (serve reqs init_db)))%Qc.
Proof.
  intros reqs.
  assert (Hreqs : Forall create_or_read reqs).
  { repeat constructor. simpl. intros w [= <-]. discriminate. }
  assert (H0 : (0 <= StockSummary.current_stock (summary init_db))%Qc)
    by discriminate.
  split; [exact Hreqs|]. split; [exact H0|].
  exact (creations_keep_stock_nonnegative reqs init_db Hreqs H0).
Defined.

(** ** How the mutations compose *)

Lemma summary_eq (s s' : StockSummary.t) :
  StockSummary.current_stock s = StockSummary.current_stock s' ->
  StockSummary.total_sales s = StockSummary.total_sales s' ->
  StockSummary.total_cost s = StockSummary.total_cost s' ->
  s = s'.
Proof. destruct s, s'; simpl; congruence. Qed.

Lemma reversal_application r w a s :
  reversal
    {| StockRecord.type := StockRecord.type r; StockRecord.weight := w;
       StockRecord.amount := a;
       StockRecord.created_at := StockRecord.created_at r;
       StockRecord.unit := StockRecord.unit r |}
    (application (StockRecord.type r) w a s) = s.
Proof.
  unfold reversal, application; simpl.
  destruct (StockRecord.type r); apply summary_eq; simpl; ring.
Qed.









(** ** What the ledger holds *)

Lemma truthy_number (v : json) (q : Qc) :
  truthy v = true -> as_number v = Some q -> q <> 0%Qc.
Proof.
  destruct v as [|[]|q'|s]; simpl; try discriminate.
  - intros _ [= <-]. discriminate.
  - intros Hq [= <-]. by case_bool_decide.
Qed.

Lemma validation_passed (w a : json) :
  negb (truthy w) || negb (truthy a) = false ->
  truthy w = true /\ truthy a = true.
Proof. by destruct (truthy w), (truthy a). Qed.

Lemma handle_well_formed req db :
  map_Forall (fun _ => well_formed) (records db) ->
  map_Forall (fun _ => well_formed) (records (handle req db).1).
Proof.
  intros Hdb.
  destruct req as [now data|now data| |start_time end_time|record_id
                  |record_id data]; cbn [handle].
  - unfold stock_in.
    destruct (negb (truthy (get_weight data)) || negb (truthy (get_amount data)))
      eqn:Hvalid; [done|].
    apply validation_passed in Hvalid as [Hw Ha].
    destruct (as_number (get_weight data)) as [w|] eqn:Ew; [|done].
    destruct (as_number (get_amount data)) as [a|] eqn:Ea; [|done].
    simpl. apply map_Forall_insert_2; [|done].
    repeat split; simpl; eauto using truthy_number.
  - unfold stock_out.
    destruct (negb (truthy (get_weight data)) || negb (truthy (get_amount data)))
      eqn:Hvalid; [done|].
    apply validation_passed in Hvalid as [Hw Ha].
    destruct (as_number (get_weight data)) as [w|] eqn:Ew; [|done].
    case_bool_decide; [done|].
    destruct (as_number (get_amount data)) as [a|] eqn:Ea; [|done].
    simpl. apply map_Forall_insert_2; [|done].
    repeat split; simpl; eauto using truthy_number.
  - done.
  - unfold get_records. by rewrite get_records_in_state.
  - unfold delete_record.
    destruct (records db !! record_id); [|done].
    simpl. by apply map_Forall_delete.
  - unfold update_record.
    destruct (records db !! record_id) as [r|] eqn:Hr; [|done].
    destruct (negb (truthy (get_weight data)) || negb (truthy (get_amount data)))
      eqn:Hvalid; [done|].
    apply validation_passed in Hvalid as [Hw Ha].
    destruct (as_number (get_weight data)) as [w|] eqn:Ew; [|done].
    destruct (as_number (get_amount data)) as [a|] eqn:Ea; [|done].
    simpl. apply map_Forall_insert_2; [|done].
    destruct (Hdb _ _ Hr) as (_ & _ & Hunit).
    repeat split; simpl; eauto using truthy_number.
Qed.

(** X8. Whatever requests were served since first boot, every record in the
    ledger has a non-zero weight, a non-zero amount, and the unit of its
    direction: kilograms for inbound, jin for outbound. *)
Theorem ledger_records_well_formed
    (reqs : list request) (record_id : N) (r : StockRecord.t) :
  records (serve reqs init_db) !! record_id = Some r ->
  StockRecord.weight r <> 0%Qc
  /\ StockRecord.amount r <> 0%Qc
  /\ StockRecord.unit r
     = match StockRecord.type r with
       | type_in => unit_kg
       | type_out => unit_jin
       end.
Proof.
  assert (H : forall db,
             map_Forall (fun _ => well_formed) (records db) ->
             map_Forall (fun _ => well_formed) (records (serve reqs db))).
  { induction reqs as [|req reqs IH]; intros db Hdb; [done|].
    apply IH. by apply handle_well_formed. }
  intros Hr. exact (H init_db (map_Forall_empty _) _ _ Hr).
Qed.

Lemma ledger_records_well_formed_witness :
  let sale :=
    {| StockRecord.type := type_out; StockRecord.weight := Q2Qc 4;
       StockRecord.amount := Q2Qc 10; StockRecord.created_at := morning;
       StockRecord.unit := unit_jin |} in
  records ten_kg_sold_four_jin !! 2%N = Some sale
  /\ StockRecord.weight sale <> 0%Qc
  /\ StockRecord.amount sale <> 0%Qc
  /\ StockRecord.unit sale = unit_jin.
Proof.
  intros sale.
  assert (Hr : records ten_kg_sold_four_jin !! 2%N = Some sale) by reflexivity.
  split; [exact Hr|].
  exact (ledger_records_well_formed
           [POST_stock_in morning (numbers (Q2Qc 10) (Q2Qc 30));
            POST_stock_out morning (numbers (Q2Qc 4) (Q2Qc 10))]
           2%N sale Hr).
Defined.

(** X9. A request touches at most one row of the ledger, and a record that
    is there before and after the request has kept its direction, unit and
    timestamp. *)
Theorem requests_touch_one_record (req : request) (db : database) :
  (exists record_id,
     forall j, j <> record_id ->
               records (handle req db).1 !! j = records db !! j)
  /\ (forall j r r',
        records db !! j = Some r ->
        records (handle req db).1 !! j = Some r' ->
        StockRecord.type r' = StockRecord.type r
        /\ StockRecord.unit r' = StockRecord.unit r
        /\ StockRecord.created_at r' = StockRecord.created_at r).
Proof.
  assert (Hsame : forall m : gmap N StockRecord.t,
            (exists record_id : N, forall j, j <> record_id -> m !! j = m !! j)
            /\ (forall j r r',
                  m !! j = Some r -> m !! j = Some r' ->
                  StockRecord.type r' = StockRecord.type r
                  /\ StockRecord.unit r' = StockRecord.unit r
                  /\ StockRecord.created_at r' = StockRecord.created_at r)).
  { intros m. split; [by exists 0%N|]. intros j r r' ->. by intros [= ->]. }
  assert (Hnew : forall (m : gmap N StockRecord.t) x,
            (exists record_id : N,
               forall j, j <> record_id -> <[next_id m:=x]> m !! j = m !! j)
            /\ (forall j r r',
                  m !! j = Some r -> <[next_id m:=x]> m !! j = Some r' ->
                  StockRecord.type r' = StockRecord.type r
                  /\ StockRecord.unit r' = StockRecord.unit r
                  /\ StockRecord.created_at r' = StockRecord.created_at r)).
  { intros m x. split.
    - exists (next_id m). intros j Hj. by rewrite lookup_insert_ne.
    - intros j r r' Hr. rewrite lookup_insert_ne.
      + rewrite Hr. by intros [= ->].
      + intros <-. by rewrite next_id_fresh in Hr. }
  destruct req as [now data|now data| |start_time end_time|record_id
                  |record_id data]; cbn [handle].
  - unfold stock_in.
    destruct (negb (truthy (get_weight data)) || negb (truthy (get_amount data)));
      [apply Hsame|].
    destruct (as_number (get_weight data)), (as_number (get_amount data));
      try apply Hsame.
    apply Hnew.
  - unfold stock_out.
    destruct (negb (truthy (get_weight data)) || negb (truthy (get_amount data)));
      [apply Hsame|].
    destruct (as_number (get_weight data)); [|apply Hsame].
    case_bool_decide; [apply Hsame|].
    destruct (as_number (get_amount data)); [|apply Hsame].
    apply Hnew.
  - apply Hsame.
  - unfold get_records. rewrite get_records_in_state. apply Hsame.
  - unfold delete_record.
    destruct (records db !! record_id) as [r0|] eqn:Hr0; [|apply Hsame].
    cbn [fst records]. split.
    + exists record_id. intros j Hj. by rewrite lookup_delete_ne.
    + intros j r r' Hr. destruct (decide (record_id = j)) as [->|Hne].
      * by rewrite lookup_delete_eq.
      * rewrite lookup_delete_ne by done. rewrite Hr. by intros [= ->].
  - unfold update_record.
    destruct (records db !! record_id) as [r0|] eqn:Hr0; [|apply Hsame].
    destruct (negb (truthy (get_weight data)) || negb (truthy (get_amount data)));
      [apply Hsame|].
    destruct (as_number (get_weight data)), (as_number (get_amount data));
      try apply Hsame.
    cbn [fst records]. split.
    + exists record_id. intros j Hj. by rewrite lookup_insert_ne.
    + intros j r r' Hr. destruct (decide (record_id = j)) as [->|Hne].
      * rewrite lookup_insert_eq. rewrite Hr0 in Hr. injection Hr as ->.
        by intros [= <-].
      * rewrite lookup_insert_ne by done. rewrite Hr. by intros [= ->].
Qed.

Lemma requests_touch_one_record_witness :
  let req := PUT_record 2 (numbers (Q2Qc 2) (Q2Qc 5)) in
  let sale :=
    {| StockRecord.type := type_out; StockRecord.weight := Q2Qc 4;
       StockRecord.amount := Q2Qc 10; StockRecord.created_at := morning;
       StockRecord.unit := unit_jin |} in
  let sale' :=
    {| StockRecord.type := type_out; StockRecord.weight := Q2Qc 2;
       StockRecord.amount := Q2Qc 5; StockRecord.created_at := morning;
       StockRecord.unit := unit_jin |} in
  records ten_kg_sold_four_jin !! 2%N = Some sale
  /\ records (handle req ten_kg_sold_four_jin).1 !! 2%N = Some sale'
  /\ StockRecord.type sale' = StockRecord.type sale
  /\ StockRecord.unit sale' = StockRecord.unit sale
  /\ StockRecord.created_at sale' = StockRecord.created_at sale.
Proof.
  intros req sale sale'.
  assert (Hr : records ten_kg_sold_four_jin !! 2%N = Some sale)
    by reflexivity.
  assert (Hr' : records (handle req ten_kg_sold_four_jin).1 !! 2%N
                = Some sale') by reflexivity.
  split; [exact Hr|]. split; [exact Hr'|].
  exact (proj2 (requests_touch_one_record req ten_kg_sold_four_jin)
           2%N sale sale' Hr Hr').
Defined.

(** ** The summary read after any history *)




(** ** The listing *)

Lemma row_id_to_row tz (query : list (N * StockRecord.t)) :
  row_id <$> (to_row tz <$> query) = query.*1.
Proof. by rewrite <- list_fmap_compose. Qed.

(** X12. The listing without dates shows the whole ledger: one row per
    record, no key twice, and each row carries the key, direction, weight,
    unit and amount of its record. *)
Theorem unfiltered_listing_is_complete (db : database) :
  exists rows,
    get_records NoDate NoDate db = (db, jsonify (Records rows))
    /\ length rows = size (records db)
    /\ NoDup (row_id <$> rows)
    /\ (forall row,
          row ∈ rows
          <-> exists r,
                records db !! row_id row = Some r
                /\ row = to_row Asia_Shanghai (row_id row, r))
    /\ (forall record_id r,
          records db !! record_id = Some r ->
          exists row,
            row ∈ rows /\ row_id row = record_id
            /\ row_type row = StockRecord.type r
            /\ row_weight row = StockRecord.weight r
            /\ row_unit row = StockRecord.unit r
            /\ row_amount row = StockRecord.amount r).
Proof.
  unfold get_records, get_records_in.
  cbn [filter_start filter_end mbind option_bind].
  eexists. split; [reflexivity|]. split; [|split; [|split]].
  - by rewrite length_fmap, merge_sort_Permutation, length_map_to_list.
  - rewrite row_id_to_row, merge_sort_Permutation.
    apply NoDup_fst_map_to_list.
  - intros row. rewrite list_elem_of_fmap.
    setoid_rewrite merge_sort_Permutation.
    setoid_rewrite elem_of_map_to_list'. split.
    + intros ([i r] & -> & Hr). simpl in *. eauto.
    + intros (r & Hr & Hrow). exists (row_id row, r). auto.
  - intros record_id r Hr. exists (to_row Asia_Shanghai (record_id, r)).
    split; [|done].
    apply list_elem_of_fmap_2. rewrite merge_sort_Permutation.
    by apply elem_of_map_to_list.
Qed.

#[local] Instance created_desc_transitive : Transitive created_desc.
Proof. unfold created_desc. intros a b c ??. lia. Qed.

#[local] Instance created_desc_total : Total created_desc.
Proof. unfold created_desc. intros a b. lia. Qed.

Lemma shown_micros (t : Z) :
  to_micros (strftime (of_micros t)) = t - t mod US_PER_SECOND.
Proof.
  unfold to_micros, strftime, of_micros;
    cbn [ordinal hour minute second microsecond].
  unfold US_PER_DAY, US_PER_HOUR, US_PER_MINUTE, US_PER_SECOND.
  Z.div_mod_to_equations. lia.
Qed.

Lemma to_row_desc tz (a b : N * StockRecord.t) :
  created_desc a b -> shown_desc (to_row tz a) (to_row tz b).
Proof.
  unfold created_desc, shown_desc, to_row, utc_astimezone, created_micros;
    cbn [row_created_at].
  rewrite !shown_micros. unfold US_PER_SECOND.
  generalize (current_utcoffset tz),
    (to_micros (StockRecord.created_at a.2)),
    (to_micros (StockRecord.created_at b.2)).
  intros off ta tb Hle. Z.div_mod_to_equations. lia.
Qed.



Lemma filter_start_spec tz start_time query query' :
  filter_start tz start_time query = Some query' ->
  forall row,
    row ∈ query'
    <-> row ∈ query
        /\ (forall s, start_time = Date s ->
                      s * US_PER_DAY - default_utcoffset tz
                      <= created_micros row).
Proof.
  destruct start_time as [| |d]; simpl; intros [= <-] row.
  - split; [|tauto]. intros Hrow. split; [done|]. discriminate.
  - rewrite list_elem_of_filter, start_utc_micros. split.
    + intros [Hlo Hrow]. split; [done|]. by intros s [= <-].
    + intros [Hrow Hlo]. split; [by apply Hlo | done].
Qed.

Lemma filter_end_spec tz end_time query query' :
  0 < default_utcoffset tz <= US_PER_DAY ->
  filter_end tz end_time query = Some query' ->
  forall row,
    row ∈ query'
    <-> row ∈ query
        /\ (forall e, end_time = Date e ->
                      created_micros row <= e * US_PER_DAY - 1).
Proof.
  intros Hoff.
  destruct end_time as [| |d]; simpl; intros [= <-] row.
  - split; [|tauto]. intros Hrow. split; [done|]. discriminate.
  - rewrite list_elem_of_filter, (end_utc_micros tz d Hoff). split.
    + intros [Hhi Hrow]. split; [done|]. by intros e [= <-].
    + intros [Hrow Hhi]. split; [by apply Hhi | done].
Qed.

Lemma Asia_Shanghai_east :
  0 < default_utcoffset Asia_Shanghai <= US_PER_DAY.
Proof. split; [reflexivity | discriminate]. Qed.





(** ** Edges of deletion and of the stock check *)



